(** * Bulk create / update / destroy mixins (rest_framework_bulk.drf3.mixins)

    A shallow embedding of [rest_framework_bulk/drf3/mixins.py].

    The module is a thin layer over a host web framework.  What the module
    itself owns is embedded as written: the payload-resolving [decorator], the
    three mixin classes and their hook methods.  What it calls into (the
    request object, the serializer, querysets and the table behind them) is a
    small explicit model: Python values, exceptions as an error result, and a
    world that holds the request object, the table and the queryset objects. *)

From Stdlib Require Import ZArith String List Bool.
From stdpp Require Import base option list gmap strings.

Open Scope string_scope.
Open Scope Z_scope.

(** ** Python values *)

(** The values a parsed request body, a view attribute or an argument can
    hold: JSON-like data plus tuples.  Dictionaries are keyed by [str] (JSON
    objects, URL keyword arguments) and keep insertion order. *)
#[warnings="-register-all"]
Inductive Py : Type :=
| PyNone
| PyBool (b : bool)
| PyInt (n : Z)
| PyStr (s : string)
| PyList (xs : list Py)
| PyTuple (xs : list Py)
| PyDict (kvs : list (string * Py)).

Inductive Exn : Type :=
| TypeError
| AttributeError
| KeyError
| IndexError
| ValidationError (errors : Py)
| HostError (what : string).

(** Outcome of evaluating an expression: a value or a raised exception. *)
Inductive Res (A : Type) : Type :=
| Ok (a : A)
| Raise (e : Exn).
Arguments Ok {A} a.
Arguments Raise {A} e.

Definition is_raise {A} (r : Res A) : bool :=
  match r with Ok _ => false | Raise _ => true end.

(** [bool(x)] *)
Definition py_truthy (x : Py) : bool :=
  match x with
  | PyNone => false
  | PyBool b => b
  | PyInt n => negb (n =? 0)
  | PyStr s => negb (String.eqb s "")
  | PyList xs | PyTuple xs => negb (Nat.eqb (length xs) 0)
  | PyDict kvs => negb (Nat.eqb (length kvs) 0)
  end.

(** [a or b] *)
Definition py_or (a b : Py) : Py := if py_truthy a then a else b.

(** [isinstance(x, list)] *)
Definition isinstance_list (x : Py) : bool :=
  match x with PyList _ => true | _ => false end.

(** [hash(x)] succeeds *)
Fixpoint py_hashable (x : Py) : bool :=
  match x with
  | PyNone | PyBool _ | PyInt _ | PyStr _ => true
  | PyTuple xs => forallb py_hashable xs
  | PyList _ | PyDict _ => false
  end.

Fixpoint assoc {V} (k : string) (kvs : list (string * V)) : option V :=
  match kvs with
  | [] => None
  | (k', v) :: rest => if String.eqb k k' then Some v else assoc k rest
  end.

(** [a == b]: [bool] is a subclass of [int]; sequences compare item by item;
    dictionaries compare as maps, whatever the order. *)
Fixpoint py_eqb (a b : Py) {struct a} : bool :=
  let fix items (xs ys : list Py) {struct xs} : bool :=
    match xs, ys with
    | [], [] => true
    | x :: xs', y :: ys' => py_eqb x y && items xs' ys'
    | _, _ => false
    end in
  let fix entries (kvs : list (string * Py)) (other : list (string * Py))
      {struct kvs} : bool :=
    match kvs with
    | [] => true
    | (k, v) :: rest =>
        match assoc k other with
        | Some v' => py_eqb v v' && entries rest other
        | None => false
        end
    end in
  match a, b with
  | PyNone, PyNone => true
  | PyBool x, PyBool y => Bool.eqb x y
  | PyBool x, PyInt n => Z.b2z x =? n
  | PyInt n, PyBool x => n =? Z.b2z x
  | PyInt m, PyInt n => m =? n
  | PyStr s, PyStr t => String.eqb s t
  | PyList xs, PyList ys => items xs ys
  | PyTuple xs, PyTuple ys => items xs ys
  | PyDict kvs, PyDict other =>
      Nat.eqb (length kvs) (length other) && entries kvs other
  | _, _ => false
  end.

(** An index usable on a sequence: an [int] (or a [bool], which is one). *)
Definition py_index (k : Py) : option Z :=
  match k with
  | PyInt n => Some n
  | PyBool b => Some (Z.b2z b)
  | _ => None
  end.

(** [xs[k]] on a list or tuple: integer keys only, negative ones count from
    the end. *)
Definition seq_getitem (xs : list Py) (k : Py) : Res Py :=
  match py_index k with
  | None => Raise TypeError
  | Some i =>
      let n := Z.of_nat (length xs) in
      let j := if i <? 0 then i + n else i in
      if (0 <=? j) && (j <? n)
      then match xs !! Z.to_nat j with Some v => Ok v | None => Raise IndexError end
      else Raise IndexError
  end.

(** [x in c] *)
Definition py_contains (x c : Py) : Res bool :=
  match c with
  | PyList xs | PyTuple xs => Ok (existsb (py_eqb x) xs)
  | PyDict kvs =>
      if py_hashable x
      then Ok (match x with
               | PyStr s => bool_decide (is_Some (assoc s kvs))
               | _ => false
               end)
      else Raise TypeError
  | PyStr s =>
      match x with
      | PyStr t => Ok (bool_decide (is_Some (String.index 0 t s)))
      | _ => Raise TypeError
      end
  | PyNone | PyBool _ | PyInt _ => Raise TypeError
  end.

(** [c[k]] *)
Definition py_getitem (c k : Py) : Res Py :=
  match c with
  | PyList xs | PyTuple xs => seq_getitem xs k
  | PyDict kvs =>
      if py_hashable k
      then match k with
           | PyStr s => match assoc s kvs with Some v => Ok v | None => Raise KeyError end
           | _ => Raise KeyError
           end
      else Raise TypeError
  | PyStr s =>
      match py_index k with
      | None => Raise TypeError
      | Some i =>
          let n := Z.of_nat (String.length s) in
          let j := if i <? 0 then i + n else i in
          if (0 <=? j) && (j <? n)
          then Ok (PyStr (String.substring (Z.to_nat j) 1 s))
          else Raise IndexError
      end
  | PyNone | PyBool _ | PyInt _ => Raise TypeError
  end.

(** [args[k]] where [args] is the tuple collected by [*args]. *)
Definition tuple_getitem (args : list Py) (k : Py) : Res Py :=
  py_getitem (PyTuple args) k.

(** [args[k] = v] where [args] is the tuple collected by [*args]: a tuple has
    no item assignment, the statement raises [TypeError] whatever the key and
    the value. *)
Definition tuple_setitem (args : list Py) (k v : Py) : Res (list Py) :=
  Raise TypeError.

(** [d.pop(k, default)] on a keyword dictionary: the value and what is left. *)
Definition dict_pop (k : string) (default : Py) (d : gmap string Py)
  : Py * gmap string Py :=
  (match d !! k with Some v => v | None => default end, delete k d).

(** ** The world a handler runs in *)

(** The request object.  [req_data] is what the [request.data] property
    gives (the parsed body, or the parser's exception); [req_csv_with_keys]
    is the attribute [csv_with_keys], absent until something assigns it. *)
Record Request : Type := mkRequest {
  req_data : Res Py;
  req_csv_with_keys : option Py
}.

(** The request being handled, the table (primary key to row, a row being a
    map from field name to value), the queryset objects, each at its own
    address and holding the primary keys it yields when iterated, and the
    instances the database refuses to delete, each with the exception its
    [delete()] raises (a protected reference, a database error). *)
Record World : Type := mkWorld {
  w_request : Request;
  w_db : gmap Z (gmap string Py);
  w_qsets : gmap nat (list Z);
  w_locked : gmap Z Exn
}.

(** Computations that read and change the world and may raise.  A raised
    exception keeps the changes made before it. *)
Definition M (A : Type) : Type := World → Res A * World.

Definition ret {A} (a : A) : M A := λ w, (Ok a, w).

Definition raise {A} (e : Exn) : M A := λ w, (Raise e, w).

Definition bind {A B} (m : M A) (k : A → M B) : M B :=
  λ w, match m w with
       | (Ok a, w') => k a w'
       | (Raise e, w') => (Raise e, w')
       end.

Definition lift {A} (r : Res A) : M A := λ w, (r, w).

Declare Scope py_scope.
Delimit Scope py_scope with py.
Notation "x <- m ;; k" := (bind m (λ x, k))
  (at level 100, m at next level, right associativity) : py_scope.
Notation "m ;; k" := (bind m (λ _, k))
  (at level 100, right associativity) : py_scope.
Open Scope py_scope.

(** [for x in xs: body(x)] *)
Fixpoint for_each {A} (body : A → M unit) (xs : list A) : M unit :=
  match xs with
  | [] => ret tt
  | x :: rest => body x ;; for_each body rest
  end.

(** [request.data] *)
Definition request_data : M Py := λ w, (req_data (w_request w), w).

(** [request.csv_with_keys = v] *)
Definition request_set_csv_with_keys (v : Py) : M unit :=
  λ w, (Ok tt,
        mkWorld (mkRequest (req_data (w_request w)) (Some v)) (w_db w) (w_qsets w)
          (w_locked w)).

(** Iterating a queryset object evaluates it to the instances it selects;
    an address that holds no queryset is not iterable. *)
Definition iter_queryset (q : nat) : M (list Z) :=
  λ w, match w_qsets w !! q with
       | Some pks => (Ok pks, w)
       | None => (Raise TypeError, w)
       end.

(** [instance.delete()]: the database either refuses, and the call raises
    with the table as it was, or the row of that primary key leaves the
    table. *)
Definition instance_delete (instance : Z) : M unit :=
  λ w, match w_locked w !! instance with
       | Some e => (Raise e, w)
       | None =>
           (Ok tt, mkWorld (w_request w) (delete instance (w_db w)) (w_qsets w)
                     (w_locked w))
       end.

(** A serializer object, as far as the mixins use it. *)
Record Serializer : Type := mkSerializer {
  is_valid : bool → M bool;      (* is_valid(raise_exception=...) *)
  save : M unit;                 (* save() *)
  serializer_data : M Py         (* the .data property *)
}.

(** [Response(data, status=...)]; [data] defaults to [None]. *)
Record Response : Type := mkResponse {
  resp_data : Py;
  resp_status : Z
}.

Module status.
Definition HTTP_200_OK : Z := 200.
Definition HTTP_201_CREATED : Z := 201.
Definition HTTP_204_NO_CONTENT : Z := 204.
Definition HTTP_400_BAD_REQUEST : Z := 400.
End status.

(** ** The view object ([self] / [inst]) *)

(** The members the mixin code reaches through [self].  The first group comes
    from the host's generic view and from [CreateModelMixin]; the second group
    are the methods the mixins define themselves, which a subclass may
    override, so calls through [self] go through these slots.
    [acceptable_csv_file_name] is [None] when the object has no such
    attribute at all. *)
Module View.
Record t : Type := mk {
  acceptable_csv_file_name : option Py;
  lookup_url_kwarg : Py;
  lookup_field : Py;
  kwargs : list (string * Py);
  get_queryset : M nat;
  filter_queryset : nat → M nat;
  (* get_serializer(instance, data=..., many=..., partial=...) *)
  get_serializer : option nat → Py → bool → option Py → M Serializer;
  perform_create : Serializer → M unit;
  super_create : list Py → gmap string Py → M Response;
  super_get_object : M Py;

  perform_bulk_create : Serializer → M unit;
  bulk_update : list Py → gmap string Py → M Response;
  perform_update : Serializer → M unit;
  perform_bulk_update : Serializer → M unit;
  allow_bulk_destroy : nat → nat → M Py;
  perform_destroy : Z → M unit;
  perform_bulk_destroy : nat → M unit
}.
End View.
Abbreviation View := View.t.

(** [inst.acceptable_csv_file_name] *)
Definition getattr_acceptable_csv_file_name (inst : View) : M Py :=
  lift (match View.acceptable_csv_file_name inst with
        | Some v => Ok v
        | None => Raise AttributeError
        end).

(** A handler method as [dispatch] calls it: [handler(request, *args,
    **kwargs)] bound to the view.  The request is the one held by the
    world. *)
Definition Handler : Type := View → list Py → gmap string Py → M Response.

(** ** The payload-resolving decorator *)

(** <<
    def inner(inst, request, *args, **kwargs):
        request.csv_with_keys = True
        if inst.acceptable_csv_file_name and inst.acceptable_csv_file_name in request.data:
            args['data'] = request.data[inst.acceptable_csv_file_name]
        else:
            args['data'] = request.data
        return fn(inst, request, *args, **kwargs)
    >>
    [args] is the tuple of the extra positional arguments. *)
Definition decorator (fn : Handler) : Handler :=
  λ inst args kwargs,
    request_set_csv_with_keys (PyBool true) ;;
    name <- getattr_acceptable_csv_file_name inst ;;
    found <- (if py_truthy name
              then name <- getattr_acceptable_csv_file_name inst ;;
                   d <- request_data ;;
                   lift (py_contains name d)
              else ret false) ;;
    args <- (if found : bool
             then d <- request_data ;;
                  name <- getattr_acceptable_csv_file_name inst ;;
                  v <- lift (py_getitem d name) ;;
                  lift (tuple_setitem args (PyStr "data") v)
             else d <- request_data ;;
                  lift (tuple_setitem args (PyStr "data") d)) ;;
    fn inst args kwargs.

(** ** class BulkCreateModelMixin(CreateModelMixin) *)

Module BulkCreateModelMixin.

(** The function under [@decorator]:
    <<
    data = args['data']
    bulk = isinstance(data, list)
    if not bulk:
        return super(BulkCreateModelMixin, self).create(request, *args, **kwargs)
    else:
        serializer = self.get_serializer(data=data, many=True)
        serializer.is_valid(raise_exception=True)
        self.perform_bulk_create(serializer)
        return Response(serializer.data, status=status.HTTP_201_CREATED)
    >> *)
Definition create_fn : Handler :=
  λ self args kwargs,
    data <- lift (tuple_getitem args (PyStr "data")) ;;
    let bulk := isinstance_list data in
    if negb bulk
    then View.super_create self args kwargs
    else
      serializer <- View.get_serializer self None data true None ;;
      is_valid serializer true ;;
      View.perform_bulk_create self serializer ;;
      d <- serializer_data serializer ;;
      ret (mkResponse d status.HTTP_201_CREATED).

Definition create : Handler := decorator create_fn.

Definition perform_bulk_create (self : View) (serializer : Serializer) : M unit :=
  View.perform_create self serializer.

End BulkCreateModelMixin.

(** ** class BulkUpdateModelMixin(object) *)

Module BulkUpdateModelMixin.

(** The class attribute [acceptable_csv_file_name = None]. *)
Definition acceptable_csv_file_name : Py := PyNone.

(** <<
    lookup_url_kwarg = self.lookup_url_kwarg or self.lookup_field
    if lookup_url_kwarg in self.kwargs:
        return super(BulkUpdateModelMixin, self).get_object()
    return
    >> *)
Definition get_object (self : View) : M Py :=
  let lookup_url_kwarg := py_or (View.lookup_url_kwarg self) (View.lookup_field self) in
  present <- lift (py_contains lookup_url_kwarg (PyDict (View.kwargs self))) ;;
  if present : bool
  then View.super_get_object self
  else ret PyNone.

(** The function under [@decorator]:
    <<
    data = args['data']
    partial = kwargs.pop('partial', False)
    serializer = self.get_serializer(
        self.filter_queryset(self.get_queryset()),
        data=data, many=True, partial=partial)
    serializer.is_valid(raise_exception=True)
    self.perform_bulk_update(serializer)
    return Response(serializer.data, status=status.HTTP_200_OK)
    >> *)
Definition bulk_update_fn : Handler :=
  λ self args kwargs,
    data <- lift (tuple_getitem args (PyStr "data")) ;;
    let '(partial, kwargs) := dict_pop "partial" (PyBool false) kwargs in
    qs <- View.get_queryset self ;;
    filtered <- View.filter_queryset self qs ;;
    serializer <- View.get_serializer self (Some filtered) data true (Some partial) ;;
    is_valid serializer true ;;
    View.perform_bulk_update self serializer ;;
    d <- serializer_data serializer ;;
    ret (mkResponse d status.HTTP_200_OK).

Definition bulk_update : Handler := decorator bulk_update_fn.

(** <<
    kwargs['partial'] = True
    return self.bulk_update(request, *args, **kwargs)
    >> *)
Definition partial_bulk_update : Handler :=
  λ self args kwargs,
    let kwargs := <["partial" := PyBool true]> kwargs in
    View.bulk_update self args kwargs.

Definition perform_update (self : View) (serializer : Serializer) : M unit :=
  save serializer.

Definition perform_bulk_update (self : View) (serializer : Serializer) : M unit :=
  View.perform_update self serializer.

End BulkUpdateModelMixin.

(** ** class BulkDestroyModelMixin(object) *)

Module BulkDestroyModelMixin.

(** [qs is not filtered]: the two names are compared as objects. *)
Definition allow_bulk_destroy (self : View) (qs filtered : nat) : M Py :=
  ret (PyBool (negb (Nat.eqb qs filtered))).

(** <<
    qs = self.get_queryset()
    filtered = self.filter_queryset(qs)
    if not self.allow_bulk_destroy(qs, filtered):
        return Response(status=status.HTTP_400_BAD_REQUEST)
    self.perform_bulk_destroy(filtered)
    return Response(status=status.HTTP_204_NO_CONTENT)
    >> *)
Definition bulk_destroy : Handler :=
  λ self args kwargs,
    qs <- View.get_queryset self ;;
    filtered <- View.filter_queryset self qs ;;
    allowed <- View.allow_bulk_destroy self qs filtered ;;
    if negb (py_truthy allowed)
    then ret (mkResponse PyNone status.HTTP_400_BAD_REQUEST)
    else
      View.perform_bulk_destroy self filtered ;;
      ret (mkResponse PyNone status.HTTP_204_NO_CONTENT).

Definition perform_destroy (self : View) (instance : Z) : M unit :=
  instance_delete instance.

(** <<
    for obj in objects:
        self.perform_destroy(obj)
    >> *)
Definition perform_bulk_destroy (self : View) (objects : nat) : M unit :=
  objs <- iter_queryset objects ;;
  for_each (λ obj, View.perform_destroy self obj) objs.

End BulkDestroyModelMixin.

(** ** A small host

    Enough of a host framework to run the handlers on concrete requests: a
    queryset allocator, three filtering behaviours, and a serializer for
    records with one required field ["name"]. *)

Module Host.

(** A new queryset object holding [pks], at an address not yet in use. *)
Definition new_queryset (pks : list Z) : M nat :=
  λ w, let q := fresh (dom (w_qsets w)) in
       (Ok q, mkWorld (w_request w) (w_db w) (<[q := pks]> (w_qsets w)) (w_locked w)).

(** [Model.objects.all()]: a new queryset over the whole table. *)
Definition all_objects : M nat :=
  λ w, new_queryset (map fst (map_to_list (w_db w))) w.

(** No filter backend: the queryset comes back as it went in. *)
Definition filter_none (qs : nat) : M nat := ret qs.

(** A filter backend: the result is a new queryset object holding the
    instances that pass [keep]. *)
Definition filter_by (keep : Z → bool) (qs : nat) : M nat :=
  pks <- iter_queryset qs ;;
  new_queryset (List.filter keep pks).

Definition required_error : Py :=
  PyDict [("name", PyList [PyStr "This field is required."])].
Definition invalid_error : Py :=
  PyDict [("non_field_errors", PyList [PyStr "Invalid data."])].

(** The errors of one record; an empty dictionary when it is valid. *)
Definition record_errors (partial : bool) (r : Py) : Py :=
  match r with
  | PyDict kvs =>
      if partial || bool_decide (is_Some (assoc "name" kvs))
      then PyDict []
      else required_error
  | _ => invalid_error
  end.

Definition records_of (data : Py) : option (list Py) :=
  match data with PyList rs => Some rs | _ => None end.

Definition row_of (r : Py) : gmap string Py :=
  match r with PyDict kvs => list_to_map kvs | _ => ∅ end.

(** Insert one record at the next free primary key. *)
Definition insert_record (r : Py) : M unit :=
  λ w, let pk := Z.of_nat (size (w_db w)) + 1 in
       (Ok tt, mkWorld (w_request w) (<[pk := row_of r]> (w_db w)) (w_qsets w)
                 (w_locked w)).

(** Overlay one record on the row its ["id"] names. *)
Definition update_record (r : Py) : M unit :=
  λ w, match r with
       | PyDict kvs =>
           match assoc "id" kvs with
           | Some (PyInt pk) =>
               (Ok tt, mkWorld (w_request w)
                         (alter (λ row, row_of r ∪ row) pk (w_db w)) (w_qsets w)
                         (w_locked w))
           | _ => (Ok tt, w)
           end
       | _ => (Ok tt, w)
       end.

Definition serializer (instance : option nat) (data : Py) (many : bool)
    (partial : option Py) : Serializer :=
  let partial := match partial with Some p => py_truthy p | None => false end in
  let records := match records_of data with Some rs => rs | None => [data] end in
  let errors := map (record_errors partial) records in
  mkSerializer
    (λ raise_exception,
       if forallb (λ e, negb (py_truthy e)) errors
       then ret true
       else if raise_exception : bool
            then raise (ValidationError (PyList errors))
            else ret false)
    (for_each (match instance with
               | None => insert_record
               | Some _ => update_record
               end) records)
    (ret data).

Definition get_serializer (instance : option nat) (data : Py) (many : bool)
    (partial : option Py) : M Serializer :=
  ret (serializer instance data many partial).

(** [CreateModelMixin.perform_create] *)
Definition perform_create (s : Serializer) : M unit := save s.

(** [CreateModelMixin.create]: the single-object path, reading
    [request.data] itself. *)
Definition create (args : list Py) (kwargs : gmap string Py) : M Response :=
  d <- request_data ;;
  s <- get_serializer None d false None ;;
  is_valid s true ;;
  perform_create s ;;
  d <- serializer_data s ;;
  ret (mkResponse d status.HTTP_201_CREATED).

(** [GenericAPIView.get_object]: the instance the URL names, or not found. *)
Definition get_object (kwargs : list (string * Py)) : M Py :=
  λ w, match assoc "pk" kwargs with
       | Some (PyInt pk) =>
           if bool_decide (is_Some (w_db w !! pk))
           then (Ok (PyInt pk), w)
           else (Raise (HostError "Http404"), w)
       | _ => (Raise (HostError "Http404"), w)
       end.

(** A view object of a class that mixes the three mixins into the host's
    generic view and overrides none of their methods.  [csv] is the value
    of [acceptable_csv_file_name] the object sees ([None] when its class
    does not have the attribute), [filter] its filtering behaviour.  A mixin
    method reaches the other methods through [self], so the slots are bound
    in passes: [hooks] has the methods that call no other mixin method,
    [methods] binds the mixins' definitions over [hooks], and the view binds
    [bulk_update] over [methods]. *)
Definition view (csv : option Py) (url_kwargs : list (string * Py))
    (filter : nat → M nat) : View :=
  let base :=
    View.mk csv PyNone (PyStr "pk") url_kwargs all_objects filter
      get_serializer perform_create create (get_object url_kwargs) in
  let hooks := base
      (λ s, perform_create s)
      (λ _ _, raise (HostError "unbound"))
      (λ s, save s)
      (λ s, save s)
      (λ _ _, ret PyNone)
      (λ instance, instance_delete instance)
      (λ _, ret tt) in
  let methods := base
      (BulkCreateModelMixin.perform_bulk_create hooks)
      (λ _ _, raise (HostError "unbound"))
      (BulkUpdateModelMixin.perform_update hooks)
      (BulkUpdateModelMixin.perform_bulk_update hooks)
      (BulkDestroyModelMixin.allow_bulk_destroy hooks)
      (BulkDestroyModelMixin.perform_destroy hooks)
      (BulkDestroyModelMixin.perform_bulk_destroy hooks) in
  base
    (View.perform_bulk_create methods)
    (BulkUpdateModelMixin.bulk_update methods)
    (View.perform_update methods)
    (View.perform_bulk_update methods)
    (View.allow_bulk_destroy methods)
    (View.perform_destroy methods)
    (View.perform_bulk_destroy methods).

Definition row (name : string) : gmap string Py := {[ "name" := PyStr name ]}.

(** A table of five rows, keys 1 to 5. *)
Definition table : gmap Z (gmap string Py) :=
  list_to_map [(1, row "a"); (2, row "b"); (3, row "c"); (4, row "d"); (5, row "e")].

Definition world (body : Py) : World :=
  mkWorld (mkRequest (Ok body) None) table ∅ ∅.

End Host.

(** ** Sample requests and views *)

Module Sample.

(** Two valid records. *)
Definition records_ok : Py :=
  PyList [PyDict [("name", PyStr "x")]; PyDict [("name", PyStr "y")]].

(** The second record lacks the required field. *)
Definition records_bad : Py :=
  PyList [PyDict [("name", PyStr "x")]; PyDict [("nom", PyStr "y")]].

Definition record_single : Py := PyDict [("name", PyStr "x")].

(** A form whose field ["csv"] carries the records. *)
Definition form_with_file : Py := PyDict [("csv", records_ok)].

Definition updates : Py :=
  PyList [PyDict [("id", PyInt 2); ("name", PyStr "z")]].

(** A view with the class attribute at its default, [None]. *)
Definition plain_view : View :=
  Host.view (Some BulkUpdateModelMixin.acceptable_csv_file_name) [] Host.filter_none.

(** A view whose class has [BulkCreateModelMixin] only. *)
Definition create_only_view : View := Host.view None [] Host.filter_none.

(** A view configured to read the payload from the field ["csv"]. *)
Definition csv_view : View := Host.view (Some (PyStr "csv")) [] Host.filter_none.

(** A view whose filter keeps the instances 2 and 4. *)
Definition narrowing_view : View :=
  Host.view (Some PyNone) [] (Host.filter_by (λ pk, (pk =? 2) || (pk =? 4))).

(** A view whose filter backend narrows nothing but, as backends do,
    returns a new queryset object. *)
Definition cloning_view : View :=
  Host.view (Some PyNone) [] (Host.filter_by (λ _, true)).

(** A view routed with [pk=3] in the URL. *)
Definition detail_view : View :=
  Host.view (Some PyNone) [("pk", PyInt 3)] Host.filter_none.

(** The five-row table and a request with an empty body. *)
Definition world : World := Host.world PyNone.

(** The same, with two queryset objects that hold the same instances. *)
Definition twin_world : World :=
  mkWorld (mkRequest (Ok PyNone) None) Host.table
    {[ 0%nat := [1; 2; 3]; 1%nat := [1; 2; 3] ]} ∅.

End Sample.

(** ** Subclasses: views with a member overridden *)

Module Variant.

(** The object [v] with the class attributes [lookup_url_kwarg] and
    [lookup_field] set. *)
Definition with_lookup (url_kwarg field : Py) (v : View) : View :=
  View.mk (View.acceptable_csv_file_name v) url_kwarg field (View.kwargs v)
    (View.get_queryset v) (View.filter_queryset v) (View.get_serializer v)
    (View.perform_create v) (View.super_create v) (View.super_get_object v)
    (View.perform_bulk_create v) (View.bulk_update v) (View.perform_update v)
    (View.perform_bulk_update v) (View.allow_bulk_destroy v)
    (View.perform_destroy v) (View.perform_bulk_destroy v).

(** The object [v] of a subclass that overrides [allow_bulk_destroy]. *)
Definition with_allow_bulk_destroy (guard : nat → nat → M Py) (v : View) : View :=
  View.mk (View.acceptable_csv_file_name v) (View.lookup_url_kwarg v)
    (View.lookup_field v) (View.kwargs v)
    (View.get_queryset v) (View.filter_queryset v) (View.get_serializer v)
    (View.perform_create v) (View.super_create v) (View.super_get_object v)
    (View.perform_bulk_create v) (View.bulk_update v) (View.perform_update v)
    (View.perform_bulk_update v) guard
    (View.perform_destroy v) (View.perform_bulk_destroy v).

(** The object [v] of a subclass that overrides [perform_destroy] and
    inherits [perform_bulk_destroy], which reaches the override through
    [self]. *)
Definition with_perform_destroy (destroy : Z → M unit) (v : View) : View :=
  let slots := View.mk (View.acceptable_csv_file_name v) (View.lookup_url_kwarg v)
    (View.lookup_field v) (View.kwargs v)
    (View.get_queryset v) (View.filter_queryset v) (View.get_serializer v)
    (View.perform_create v) (View.super_create v) (View.super_get_object v)
    (View.perform_bulk_create v) (View.bulk_update v) (View.perform_update v)
    (View.perform_bulk_update v) (View.allow_bulk_destroy v) destroy in
  slots (BulkDestroyModelMixin.perform_bulk_destroy
           (slots (View.perform_bulk_destroy v))).

(** A [perform_destroy] that refuses the instance 3 and deletes the others. *)
Definition protective_destroy (instance : Z) : M unit :=
  if instance =? 3
  then raise (HostError "ProtectedError")
  else instance_delete instance.

(** A guard written without a [return]: it answers [None]. *)
Definition silent_guard (qs filtered : nat) : M Py := ret PyNone.

(** A cloning view whose [perform_destroy] refuses the instance 3. *)
Definition protective_view : View :=
  with_perform_destroy protective_destroy Sample.cloning_view.

(** A narrowing view whose guard answers [None]. *)
Definition silent_view : View :=
  with_allow_bulk_destroy silent_guard Sample.narrowing_view.

(** A view whose filter matches no instance. *)
Definition empty_view : View :=
  Host.view (Some PyNone) [] (Host.filter_by (λ _, false)).

(** A detail view looked up by ["slug"], routed with [pk=3] only. *)
Definition slug_view : View :=
  with_lookup (PyStr "slug") (PyStr "pk") Sample.detail_view.

(** A view whose lookup field is a list. *)
Definition list_key_view : View :=
  with_lookup PyNone (PyList [PyStr "pk"]) Sample.detail_view.

(** A world whose request body cannot be parsed. *)
Definition unreadable_world : World :=
  mkWorld (mkRequest (Raise (HostError "ParseError")) None) Host.table ∅ ∅.

(** The five-row table, where the database refuses to delete the row 3. *)
Definition locked_world : World :=
  mkWorld (mkRequest (Ok PyNone) None) Host.table ∅
    {[ 3 := HostError "ProtectedError" ]}.

(** A partial update of the row 2 that names no field but the key. *)
Definition partial_updates : Py := PyList [PyDict [("id", PyInt 2)]].

End Variant.

(** The world once [request.csv_with_keys = True] has run. *)
Definition flagged (w : World) : World :=
  mkWorld (mkRequest (req_data (w_request w)) (Some (PyBool true))) (w_db w) (w_qsets w)
    (w_locked w).

(** * Properties *)

Section Monad_facts.
Context {A B : Type}.

Lemma bind_ok (m : M A) (k : A → M B) w a w' :
  m w = (Ok a, w') → bind m k w = k a w'.
Proof. intros H. unfold bind. by rewrite H. Qed.

Lemma bind_raise (m : M A) (k : A → M B) w e w' :
  m w = (Raise e, w') → bind m k w = (Raise e, w').
Proof. intros H. unfold bind. by rewrite H. Qed.

Lemma bind_ret (a : A) (k : A → M B) w : bind (ret a) k w = k a w.
Proof. reflexivity. Qed.
End Monad_facts.

Ltac run :=
  repeat first
    [ erewrite bind_ok by eassumption
    | erewrite bind_raise by eassumption
    | rewrite bind_ret ].

(** ** The wrapper *)

(** Every path through the wrapper ends in an exception that does not depend
    on the wrapped function; the world is the one left by the assignment to
    [request.csv_with_keys]. *)
Lemma decorator_raises (inst : View) (args : list Py) (kwargs : gmap string Py) w :
  ∃ e, ∀ fn : Handler, decorator fn inst args kwargs w = (Raise e, flagged w).
Proof.
  unfold decorator, bind, request_set_csv_with_keys, request_data,
    getattr_acceptable_csv_file_name, lift, ret, tuple_setitem, flagged; simpl.
  destruct (View.acceptable_csv_file_name inst) as [name|]; [|by eexists].
  destruct (req_data (w_request w)) as [d|e0].
  - destruct (py_truthy name); simpl; [|by eexists].
    destruct (py_contains name d) as [[|]|e1]; simpl; try by eexists.
    destruct (py_getitem d name); by eexists.
  - destruct (py_truthy name); simpl; by eexists.
Qed.

(** Which exception: the attribute lookup when the object has no
    [acceptable_csv_file_name]; else whatever [request.data] raises; else,
    for a name that is [None] or a [str], the item assignment on the tuple. *)
Lemma decorator_exception (fn : Handler) (inst : View) args kwargs w :
  fst (decorator fn inst args kwargs w) =
    match View.acceptable_csv_file_name inst, req_data (w_request w) with
    | None, _ => Raise AttributeError
    | Some _, Raise e => Raise e
    | Some name, Ok d =>
        if py_truthy name
        then match py_contains name d with
             | Ok true => match py_getitem d name with
                          | Ok _ => Raise TypeError
                          | Raise e => Raise e
                          end
             | Ok false => Raise TypeError
             | Raise e => Raise e
             end
        else Raise TypeError
    end.
Proof.
  unfold decorator, bind, request_set_csv_with_keys, request_data,
    getattr_acceptable_csv_file_name, lift, ret, tuple_setitem; simpl.
  destruct (View.acceptable_csv_file_name inst) as [name|]; [|done].
  destruct (req_data (w_request w)) as [d|e0].
  - destruct (py_truthy name); simpl; [|done].
    destruct (py_contains name d) as [[|]|e1]; simpl; try done.
    by destruct (py_getitem d name).
  - by destruct (py_truthy name).
Qed.

(** The operators the wrapper applies to the request data raise nothing but
    the built-in lookup errors. *)
Lemma py_contains_raises (x c : Py) (e : Exn) :
  py_contains x c = Raise e → e = TypeError.
Proof.
  destruct c as [| | | s |xs|xs|kvs]; simpl; try congruence.
  - destruct x; congruence.
  - destruct (py_hashable x); congruence.
Qed.

Lemma seq_getitem_raises (xs : list Py) (k : Py) (e : Exn) :
  seq_getitem xs k = Raise e → e = TypeError ∨ e = IndexError.
Proof.
  unfold seq_getitem. destruct (py_index k) as [i|]; [|intros [= <-]; by left].
  simpl. destruct (_ && _); [|intros [= <-]; by right].
  destruct (xs !! _); [done | intros [= <-]; by right].
Qed.

Lemma py_getitem_found_raises (x c : Py) (e : Exn) :
  py_contains x c = Ok true → py_getitem c x = Raise e → e = TypeError ∨ e = IndexError.
Proof.
  destruct c as [| | | s |xs|xs|kvs]; simpl; try congruence.
  - destruct x; try congruence. simpl. intros _ [= <-]. by left.
  - intros _. apply seq_getitem_raises.
  - intros _. apply seq_getitem_raises.
  - destruct (py_hashable x); [|congruence].
    destruct x; try congruence.
    intros [= Hin]. apply bool_decide_eq_true_1 in Hin as [v Hv]. by rewrite Hv.
Qed.

(** With a readable [request.data], the wrapper's exception is one of three. *)
Lemma decorator_exception_kind (fn : Handler) (inst : View) args kwargs w d e :
  req_data (w_request w) = Ok d →
  fst (decorator fn inst args kwargs w) = Raise e →
  e = AttributeError ∨ e = TypeError ∨ e = IndexError.
Proof.
  intros Hd. rewrite decorator_exception, Hd.
  destruct (View.acceptable_csv_file_name inst) as [name|]; [|intros [= <-]; auto].
  destruct (py_truthy name); [|intros [= <-]; auto].
  destruct (py_contains name d) as [[|]|e1] eqn:Hin.
  - destruct (py_getitem d name) eqn:Hget; [intros [= <-]; auto|].
    intros [= <-]. right. eapply py_getitem_found_raises; eauto.
  - intros [= <-]; auto.
  - intros [= <-]. apply py_contains_raises in Hin. auto.
Qed.

(** The views built by [Host.view] inherit every mixin method as it is. *)
Lemma view_inherits csv url_kwargs filter :
  View.perform_bulk_create (Host.view csv url_kwargs filter)
    = BulkCreateModelMixin.perform_bulk_create (Host.view csv url_kwargs filter)
  ∧ View.bulk_update (Host.view csv url_kwargs filter)
    = BulkUpdateModelMixin.bulk_update (Host.view csv url_kwargs filter)
  ∧ View.perform_update (Host.view csv url_kwargs filter)
    = BulkUpdateModelMixin.perform_update (Host.view csv url_kwargs filter)
  ∧ View.perform_bulk_update (Host.view csv url_kwargs filter)
    = BulkUpdateModelMixin.perform_bulk_update (Host.view csv url_kwargs filter)
  ∧ View.allow_bulk_destroy (Host.view csv url_kwargs filter)
    = BulkDestroyModelMixin.allow_bulk_destroy (Host.view csv url_kwargs filter)
  ∧ View.perform_destroy (Host.view csv url_kwargs filter)
    = BulkDestroyModelMixin.perform_destroy (Host.view csv url_kwargs filter)
  ∧ View.perform_bulk_destroy (Host.view csv url_kwargs filter)
    = BulkDestroyModelMixin.perform_bulk_destroy (Host.view csv url_kwargs filter).
Proof. repeat split. Qed.

(** ** Deleting the instances of a queryset *)

Lemma for_each_delete (pks : list Z) w :
  (∀ pk, pk ∈ pks → w_locked w !! pk = None) →
  for_each instance_delete pks w =
    (Ok tt, mkWorld (w_request w) (foldl (λ d pk, delete pk d) (w_db w) pks) (w_qsets w)
              (w_locked w)).
Proof.
  revert w. induction pks as [|pk pks IH]; intros w Hfree.
  - by destruct w.
  - cbn [for_each foldl]. unfold bind, instance_delete at 1.
    rewrite (Hfree pk) by (apply elem_of_cons; by left).
    rewrite IH; [done|].
    intros pk' Hin. cbn [w_locked]. apply Hfree, elem_of_cons. by right.
Qed.

(** Whether the deletions go through or one is refused, the table only
    loses rows. *)
Lemma for_each_delete_subseteq (pks : list Z) w :
  w_db (snd (for_each instance_delete pks w)) ⊆ w_db w.
Proof.
  revert w. induction pks as [|pk pks IH]; intros w; [done|].
  cbn [for_each]. unfold bind, instance_delete at 1.
  destruct (w_locked w !! pk); [done|].
  etrans; [apply IH|]. cbn [w_db]. apply delete_subseteq.
Qed.

Lemma lookup_foldl_delete (pks : list Z) (d : gmap Z (gmap string Py)) (pk : Z) :
  foldl (λ d k, delete k d) d pks !! pk =
    if bool_decide (pk ∈ pks) then None else d !! pk.
Proof.
  revert d. induction pks as [|k pks IH]; intros d.
  - case_bool_decide as H; [by apply elem_of_nil in H | done].
  - cbn [foldl]. rewrite IH. clear IH.
    destruct (decide (pk = k)) as [->|Hne].
    + rewrite lookup_delete_eq.
      rewrite (bool_decide_eq_true_2 (k ∈ k :: pks)) by (apply elem_of_cons; by left).
      by destruct (bool_decide (k ∈ pks)).
    + rewrite lookup_delete_ne by done.
      rewrite (bool_decide_ext (pk ∈ k :: pks) (pk ∈ pks)); [done|].
      rewrite elem_of_cons. tauto.
Qed.

(** ** The decorated entry points *)

(** C2.  Whatever the view, the arguments and the request, [create] and
    [bulk_update] raise inside the wrapper: the outcome is an exception, the
    same whatever function is wrapped (so the handler body, with its
    validation and persistence, is never entered), and the table and the
    querysets are as before.  The exception is [AttributeError] when the
    object has no [acceptable_csv_file_name], and the [TypeError] of the item
    assignment on the argument tuple when the attribute is [None] and
    [request.data] can be read. *)
Theorem entry_points_raise_in_wrapper
    (self : View) (args : list Py) (kwargs : gmap string Py) (w : World) :
  ∃ e,
    BulkCreateModelMixin.create self args kwargs w = (Raise e, flagged w)
    ∧ BulkUpdateModelMixin.bulk_update self args kwargs w = (Raise e, flagged w)
    ∧ (∀ fn : Handler, decorator fn self args kwargs w = (Raise e, flagged w))
    ∧ w_db (flagged w) = w_db w
    ∧ w_qsets (flagged w) = w_qsets w
    ∧ (View.acceptable_csv_file_name self = None → e = AttributeError)
    ∧ (∀ d, View.acceptable_csv_file_name self = Some PyNone →
            req_data (w_request w) = Ok d → e = TypeError)
    ∧ (∀ d, req_data (w_request w) = Ok d →
            e = AttributeError ∨ e = TypeError ∨ e = IndexError).
Proof.
  destruct (decorator_raises self args kwargs w) as [e He].
  pose proof (decorator_exception BulkCreateModelMixin.create_fn self args kwargs w) as Hk.
  rewrite He in Hk. cbn [fst] in Hk.
  exists e. repeat apply conj; try done; try apply He.
  - intros Hnone. rewrite Hnone in Hk. congruence.
  - intros d Hattr Hdata. rewrite Hattr, Hdata in Hk. simpl in Hk. congruence.
  - intros d Hdata.
    apply (decorator_exception_kind BulkCreateModelMixin.create_fn self args kwargs w d);
      [done | by rewrite He].
Qed.

Lemma entry_points_raise_in_wrapper_witness :
  BulkCreateModelMixin.create Sample.plain_view [] ∅ (Host.world Sample.records_ok)
    = (Raise TypeError, flagged (Host.world Sample.records_ok))
  ∧ BulkCreateModelMixin.create Sample.create_only_view [] ∅ (Host.world Sample.records_ok)
    = (Raise AttributeError, flagged (Host.world Sample.records_ok)).
Proof.
  split.
  - destruct (entry_points_raise_in_wrapper Sample.plain_view [] ∅
                (Host.world Sample.records_ok)) as (e & Hc & _ & _ & _ & _ & _ & Ht & _).
    rewrite Hc. f_equal. f_equal. apply (Ht Sample.records_ok); reflexivity.
  - destruct (entry_points_raise_in_wrapper Sample.create_only_view [] ∅
                (Host.world Sample.records_ok)) as (e & Hc & _ & _ & _ & _ & Ha & _ & _).
    rewrite Hc. f_equal. f_equal. apply Ha. reflexivity.
Defined.

(** C1.  At a request whose form carries the records under the configured
    field, and at a request whose body is the records, the wrapper raises
    [TypeError] on storing the payload it resolved: no wrapped function is
    ever handed a payload. *)
Theorem decorator_loses_payload :
  py_getitem Sample.form_with_file (PyStr "csv") = Ok Sample.records_ok
  ∧ (∀ fn : Handler,
       decorator fn Sample.csv_view [] ∅ (Host.world Sample.form_with_file)
       = (Raise TypeError, flagged (Host.world Sample.form_with_file)))
  ∧ (∀ fn : Handler,
       decorator fn Sample.plain_view [] ∅ (Host.world Sample.records_ok)
       = (Raise TypeError, flagged (Host.world Sample.records_ok))).
Proof. repeat split; intros; reflexivity. Qed.

(** C5.  [create] raises [TypeError] for a list payload and for a
    single-record payload alike, where the standard single-object create
    answers 201; the function under the decorator raises too, on its first
    line. *)
Theorem create_raises_on_both_shapes :
  BulkCreateModelMixin.create Sample.plain_view [] ∅ (Host.world Sample.records_ok)
    = (Raise TypeError, flagged (Host.world Sample.records_ok))
  ∧ BulkCreateModelMixin.create Sample.plain_view [] ∅ (Host.world Sample.record_single)
    = (Raise TypeError, flagged (Host.world Sample.record_single))
  ∧ fst (View.super_create Sample.plain_view [] ∅ (Host.world Sample.record_single))
    = Ok (mkResponse Sample.record_single status.HTTP_201_CREATED)
  ∧ BulkCreateModelMixin.create_fn Sample.plain_view [] ∅ (Host.world Sample.records_ok)
    = (Raise TypeError, Host.world Sample.records_ok).
Proof. repeat split; reflexivity. Qed.

(** C6.  A payload with an invalid record: the serializer would raise the
    validation error listing it, but [create] and [bulk_update] raise
    [TypeError] before any serializer exists. *)
Theorem invalid_payload_gets_type_error :
  fst (is_valid (Host.serializer None Sample.records_bad true None) true
         (Host.world Sample.records_bad))
    = Raise (ValidationError (PyList [PyDict []; Host.required_error]))
  ∧ BulkCreateModelMixin.create Sample.plain_view [] ∅ (Host.world Sample.records_bad)
    = (Raise TypeError, flagged (Host.world Sample.records_bad))
  ∧ BulkUpdateModelMixin.bulk_update Sample.plain_view [] ∅ (Host.world Sample.records_bad)
    = (Raise TypeError, flagged (Host.world Sample.records_bad)).
Proof. repeat split; reflexivity. Qed.

(** C8.  [bulk_update] at a valid payload raises [TypeError] and leaves the
    table as it was; so does the function under the decorator. *)
Theorem bulk_update_raises_on_valid_payload :
  BulkUpdateModelMixin.bulk_update Sample.plain_view [] ∅ (Host.world Sample.updates)
    = (Raise TypeError, flagged (Host.world Sample.updates))
  ∧ BulkUpdateModelMixin.bulk_update_fn Sample.plain_view [] ∅ (Host.world Sample.updates)
    = (Raise TypeError, Host.world Sample.updates).
Proof. repeat split; reflexivity. Qed.

(** ** Partial bulk update *)

(** C9.  [partial_bulk_update] hands its arguments on to the object's
    [bulk_update] with [partial] set to [True], for every view and every
    keyword dictionary.  With the inherited [bulk_update] the request is not
    served: for a record that names no field but its key, which the
    serializer accepts in partial mode and rejects as missing a field
    otherwise, the call raises [TypeError] in the wrapper and no partial
    update takes place. *)
Theorem partial_bulk_update_raises_type_error :
  (∀ (self : View) (args : list Py) (kwargs : gmap string Py) (w : World),
     BulkUpdateModelMixin.partial_bulk_update self args kwargs w
     = View.bulk_update self args (<["partial" := PyBool true]> kwargs) w)
  ∧ fst (is_valid (Host.serializer (Some 0%nat) Variant.partial_updates true
                     (Some (PyBool true))) true (Host.world Variant.partial_updates))
    = Ok true
  ∧ fst (is_valid (Host.serializer (Some 0%nat) Variant.partial_updates true
                     (Some (PyBool false))) true (Host.world Variant.partial_updates))
    = Raise (ValidationError (PyList [Host.required_error]))
  ∧ BulkUpdateModelMixin.partial_bulk_update Sample.plain_view [] ∅
      (Host.world Variant.partial_updates)
    = (Raise TypeError, flagged (Host.world Variant.partial_updates)).
Proof. repeat split; reflexivity. Qed.

(** ** Object lookup on the bulk-update mixin *)

(** C10.  When the lookup key ([lookup_url_kwarg], or [lookup_field] when
    that is unset) is not among the URL keyword arguments, [get_object]
    returns [None] and touches nothing; when it is there, [get_object] is the
    inherited single-object lookup. *)
Theorem get_object_without_lookup_key (self : View) (w : World) (present : bool)
    (Hkey : py_contains (py_or (View.lookup_url_kwarg self) (View.lookup_field self))
              (PyDict (View.kwargs self)) = Ok present) :
  BulkUpdateModelMixin.get_object self w
    = if present then View.super_get_object self w else (Ok PyNone, w).
Proof.
  unfold BulkUpdateModelMixin.get_object, bind, lift.
  rewrite Hkey. by destruct present.
Qed.

Lemma get_object_without_lookup_key_witness :
  BulkUpdateModelMixin.get_object Sample.plain_view (Host.world PyNone)
    = (Ok PyNone, Host.world PyNone)
  ∧ BulkUpdateModelMixin.get_object Sample.detail_view (Host.world PyNone)
    = View.super_get_object Sample.detail_view (Host.world PyNone).
Proof.
  split.
  - apply (get_object_without_lookup_key Sample.plain_view (Host.world PyNone) false).
    reflexivity.
  - apply (get_object_without_lookup_key Sample.detail_view (Host.world PyNone) true).
    reflexivity.
Defined.

(** ** Bulk destroy *)

(** C4.  The default [allow_bulk_destroy] answers [True] exactly when its two
    arguments are different objects, and changes nothing; two different
    queryset objects holding the same instances are allowed. *)
Theorem allow_bulk_destroy_is_identity_test
    (self : View) (qs filtered : nat) (w : World) :
  (∃ b, BulkDestroyModelMixin.allow_bulk_destroy self qs filtered w = (Ok (PyBool b), w)
        ∧ (b = true ↔ qs ≠ filtered))
  ∧ (∀ pks, qs ≠ filtered →
            w_qsets w !! qs = Some pks → w_qsets w !! filtered = Some pks →
            BulkDestroyModelMixin.allow_bulk_destroy self qs filtered w
            = (Ok (PyBool true), w)).
Proof.
  unfold BulkDestroyModelMixin.allow_bulk_destroy, ret. split.
  - eexists. split; [reflexivity|].
    rewrite negb_true_iff, Nat.eqb_neq. tauto.
  - intros pks Hne _ _. apply Nat.eqb_neq in Hne. by rewrite Hne.
Qed.

Lemma allow_bulk_destroy_is_identity_test_witness :
  BulkDestroyModelMixin.allow_bulk_destroy Sample.plain_view 0 1 Sample.twin_world
    = (Ok (PyBool true), Sample.twin_world).
Proof.
  apply (proj2 (allow_bulk_destroy_is_identity_test Sample.plain_view 0 1
                  Sample.twin_world) [1; 2; 3]).
  - discriminate.
  - reflexivity.
  - reflexivity.
Defined.

(** X12.  When [filter_queryset] hands back the very object [get_queryset]
    returned, [bulk_destroy] with the default [allow_bulk_destroy] answers
    400 and stops there: the world is the one the two host calls left,
    whatever [perform_bulk_destroy] is. *)
Theorem bulk_destroy_refuses_same_object
    (self : View) (args : list Py) (kwargs : gmap string Py)
    (w w1 w2 : World) (qs : nat)
    (Hallow : View.allow_bulk_destroy self = BulkDestroyModelMixin.allow_bulk_destroy self)
    (Hqs : View.get_queryset self w = (Ok qs, w1))
    (Hfiltered : View.filter_queryset self qs w1 = (Ok qs, w2)) :
  BulkDestroyModelMixin.bulk_destroy self args kwargs w
    = (Ok (mkResponse PyNone status.HTTP_400_BAD_REQUEST), w2).
Proof.
  unfold BulkDestroyModelMixin.bulk_destroy. run.
  rewrite Hallow. unfold BulkDestroyModelMixin.allow_bulk_destroy. run.
  by rewrite Nat.eqb_refl.
Qed.

Lemma bulk_destroy_refuses_same_object_witness :
  fst (BulkDestroyModelMixin.bulk_destroy Sample.plain_view [] ∅ Sample.world)
    = Ok (mkResponse PyNone 400)
  ∧ w_db (snd (BulkDestroyModelMixin.bulk_destroy Sample.plain_view [] ∅ Sample.world))
    = Host.table.
Proof.
  rewrite (bulk_destroy_refuses_same_object Sample.plain_view [] ∅ Sample.world
             (snd (View.get_queryset Sample.plain_view Sample.world))
             (snd (View.get_queryset Sample.plain_view Sample.world)) 0);
    [split | | |]; reflexivity.
Defined.

(** C3.  A filter that narrows nothing but returns a new queryset object
    leaves the filtered collection equal to the full one; the guard compares
    the two as objects, lets the destroy through, and [bulk_destroy] answers
    204 and empties the table, where the claim and the docstring of the guard
    want a 400 and no deletion. *)
Theorem bulk_destroy_equal_collections_deleted :
  fst (View.get_queryset Sample.cloning_view Sample.world) = Ok 0%nat
  ∧ fst (View.filter_queryset Sample.cloning_view 0
           (snd (View.get_queryset Sample.cloning_view Sample.world))) = Ok 1%nat
  ∧ w_qsets (snd (BulkDestroyModelMixin.bulk_destroy Sample.cloning_view [] ∅ Sample.world))
      !! 0%nat = Some [5; 3; 4; 2; 1]
  ∧ w_qsets (snd (BulkDestroyModelMixin.bulk_destroy Sample.cloning_view [] ∅ Sample.world))
      !! 1%nat = Some [5; 3; 4; 2; 1]
  ∧ fst (BulkDestroyModelMixin.bulk_destroy Sample.cloning_view [] ∅ Sample.world)
    = Ok (mkResponse PyNone status.HTTP_204_NO_CONTENT)
  ∧ w_db Sample.world !! 1 = Some (Host.row "a")
  ∧ w_db (snd (BulkDestroyModelMixin.bulk_destroy Sample.cloning_view [] ∅ Sample.world))
    = ∅.
Proof. vm_compute. repeat split; reflexivity. Qed.

(** The default [perform_bulk_destroy] iterates the collection and calls the
    [perform_destroy] of the object on each instance, in order. *)
Lemma perform_bulk_destroy_calls_hook (self : View) (objects : nat) (objs : list Z) w :
  w_qsets w !! objects = Some objs →
  BulkDestroyModelMixin.perform_bulk_destroy self objects w
    = for_each (View.perform_destroy self) objs w.
Proof.
  intros Hobjs.
  unfold BulkDestroyModelMixin.perform_bulk_destroy, bind, iter_queryset.
  by rewrite Hobjs.
Qed.

(** C7.  When the guard allows the destroy and the database accepts the
    deletion of every instance of the filtered collection, [bulk_destroy]
    with the default [perform_bulk_destroy] calls the single-object hook on
    each instance of the filtered collection and answers 204 with no body;
    with the default [perform_destroy] the table afterwards has lost exactly
    the rows of the filtered collection, every other row is as it was when
    filtering returned, and the querysets and the request are untouched. *)
Theorem bulk_destroy_deletes_filtered
    (self : View) (args : list Py) (kwargs : gmap string Py)
    (w w1 w2 w3 : World) (qs filtered : nat) (allowed : Py) (objs : list Z)
    (Hbulk : View.perform_bulk_destroy self = BulkDestroyModelMixin.perform_bulk_destroy self)
    (Hone : View.perform_destroy self = BulkDestroyModelMixin.perform_destroy self)
    (Hqs : View.get_queryset self w = (Ok qs, w1))
    (Hfiltered : View.filter_queryset self qs w1 = (Ok filtered, w2))
    (Hallow : View.allow_bulk_destroy self qs filtered w2 = (Ok allowed, w3))
    (Hallowed : py_truthy allowed = true)
    (Hobjs : w_qsets w3 !! filtered = Some objs)
    (Hdeletes : ∀ pk, pk ∈ objs → w_locked w3 !! pk = None) :
  ∃ w',
    BulkDestroyModelMixin.bulk_destroy self args kwargs w
      = (Ok (mkResponse PyNone status.HTTP_204_NO_CONTENT), w')
    ∧ View.perform_bulk_destroy self filtered w3
      = for_each (View.perform_destroy self) objs w3
    ∧ for_each (View.perform_destroy self) objs w3 = (Ok tt, w')
    ∧ (∀ pk, w_db w' !! pk = if bool_decide (pk ∈ objs) then None else w_db w3 !! pk)
    ∧ w_qsets w' = w_qsets w3
    ∧ w_request w' = w_request w3.
Proof.
  eexists. split; [|split; [|split; [|split; [|split]]]].
  - unfold BulkDestroyModelMixin.bulk_destroy. run.
    rewrite Hallowed. cbn [negb].
    rewrite Hbulk.
    erewrite bind_ok; [reflexivity|].
    rewrite (perform_bulk_destroy_calls_hook self filtered objs w3 Hobjs).
    rewrite Hone. unfold BulkDestroyModelMixin.perform_destroy.
    by apply for_each_delete.
  - rewrite Hbulk. by apply perform_bulk_destroy_calls_hook.
  - rewrite Hone. unfold BulkDestroyModelMixin.perform_destroy.
    by apply for_each_delete.
  - intros pk. cbn [w_db]. apply lookup_foldl_delete.
  - reflexivity.
  - reflexivity.
Qed.

Lemma bulk_destroy_deletes_filtered_witness :
  ∃ w', BulkDestroyModelMixin.bulk_destroy Sample.narrowing_view [] ∅ Sample.world
          = (Ok (mkResponse PyNone 204), w')
        ∧ w_db w' !! 2 = None ∧ w_db w' !! 4 = None
        ∧ w_db w' !! 1 = Some (Host.row "a")
        ∧ w_db w' !! 3 = Some (Host.row "c")
        ∧ w_db w' !! 5 = Some (Host.row "e").
Proof.
  set (w1 := snd (View.get_queryset Sample.narrowing_view Sample.world)).
  set (w2 := snd (View.filter_queryset Sample.narrowing_view 0 w1)).
  destruct (bulk_destroy_deletes_filtered Sample.narrowing_view [] ∅ Sample.world w1 w2 w2
              0 1 (PyBool true) [4; 2]
              eq_refl eq_refl eq_refl eq_refl eq_refl eq_refl eq_refl
              (λ _ _, eq_refl))
    as (w' & Hr & _ & _ & Hdb & _ & _).
  exists w'. split; [exact Hr|].
  rewrite !Hdb. repeat split; reflexivity.
Defined.

(** * Further properties of the mixins *)

(** ** The loop of [perform_bulk_destroy] *)

Lemma for_each_app {A} (body : A → M unit) (xs ys : list A) w :
  for_each body (xs ++ ys) w = bind (for_each body xs) (λ _, for_each body ys) w.
Proof.
  revert w. induction xs as [|x xs IH]; intros w; [done|].
  cbn [app for_each]. unfold bind.
  destruct (body x w) as [[[]|e] w1]; [|done].
  rewrite IH. reflexivity.
Qed.

(** A body that raises ends the loop: the items before it have been
    processed, the items after it are never reached. *)
Lemma for_each_stops {A} (body : A → M unit) (xs ys : list A) (x : A) w wd wf e :
  for_each body xs w = (Ok tt, wd) →
  body x wd = (Raise e, wf) →
  for_each body (xs ++ x :: ys) w = (Raise e, wf).
Proof.
  intros Hxs Hx. rewrite for_each_app. erewrite bind_ok by eassumption.
  cbn [for_each]. by erewrite bind_raise by eassumption.
Qed.

(** Once the guard has allowed the destroy, [bulk_destroy] is the bulk
    deletion hook followed by the 204 answer. *)
Lemma bulk_destroy_allowed (self : View) args kwargs w w1 w2 w3 qs filtered allowed :
  View.get_queryset self w = (Ok qs, w1) →
  View.filter_queryset self qs w1 = (Ok filtered, w2) →
  View.allow_bulk_destroy self qs filtered w2 = (Ok allowed, w3) →
  py_truthy allowed = true →
  BulkDestroyModelMixin.bulk_destroy self args kwargs w
    = bind (View.perform_bulk_destroy self filtered)
        (λ _, ret (mkResponse PyNone status.HTTP_204_NO_CONTENT)) w3.
Proof.
  intros Hqs Hfiltered Hallow Hallowed.
  unfold BulkDestroyModelMixin.bulk_destroy. run. by rewrite Hallowed.
Qed.

(** A falsy answer of the guard ends [bulk_destroy] with the 400 answer. *)
Lemma bulk_destroy_refused_by_guard_run (self : View) args kwargs w w1 w2 w3 qs filtered allowed :
  View.get_queryset self w = (Ok qs, w1) →
  View.filter_queryset self qs w1 = (Ok filtered, w2) →
  View.allow_bulk_destroy self qs filtered w2 = (Ok allowed, w3) →
  py_truthy allowed = false →
  BulkDestroyModelMixin.bulk_destroy self args kwargs w
    = (Ok (mkResponse PyNone status.HTTP_400_BAD_REQUEST), w3).
Proof.
  intros Hqs Hfiltered Hallow Hfalsy.
  unfold BulkDestroyModelMixin.bulk_destroy. run. by rewrite Hfalsy.
Qed.

(** ** The functions under the decorator *)

(** X1.  Called directly, without the wrapper, the bodies of [create] and
    [bulk_update] raise [TypeError] on their first line for every view,
    every argument tuple and every keyword dictionary, and leave the world
    exactly as it was: [args] is a tuple and is indexed with a string. *)
Theorem handler_bodies_raise_type_error
    (self : View) (args : list Py) (kwargs : gmap string Py) (w : World) :
  BulkCreateModelMixin.create_fn self args kwargs w = (Raise TypeError, w)
  ∧ BulkUpdateModelMixin.bulk_update_fn self args kwargs w = (Raise TypeError, w).
Proof. split; reflexivity. Qed.

(** ** The wrapper and the request *)

(** X2.  When the view has the attribute [acceptable_csv_file_name] and
    reading [request.data] raises, the wrapper lets that exception through,
    whatever the configured name: the caller sees the parser's error, not the
    [TypeError] of the tuple assignment. *)
Theorem decorator_propagates_request_error
    (fn : Handler) (inst : View) (args : list Py) (kwargs : gmap string Py)
    (w : World) (name : Py) (e : Exn)
    (Hattr : View.acceptable_csv_file_name inst = Some name)
    (Hdata : req_data (w_request w) = Raise e) :
  decorator fn inst args kwargs w = (Raise e, flagged w).
Proof.
  destruct (decorator_raises inst args kwargs w) as [e' He].
  pose proof (decorator_exception fn inst args kwargs w) as Hk.
  rewrite He, Hattr, Hdata in Hk. cbn [fst] in Hk.
  rewrite He. congruence.
Qed.

Lemma decorator_propagates_request_error_witness :
  BulkUpdateModelMixin.bulk_update Sample.csv_view [] ∅ Variant.unreadable_world
    = (Raise (HostError "ParseError"), flagged Variant.unreadable_world).
Proof.
  apply (decorator_propagates_request_error BulkUpdateModelMixin.bulk_update_fn
           Sample.csv_view [] ∅ Variant.unreadable_world (PyStr "csv"));
    reflexivity.
Defined.

(** X3.  The outcome of a decorated handler is decided by two things only,
    the view's [acceptable_csv_file_name] and what [request.data] gives: two
    calls that agree on these have the same outcome, whatever the wrapped
    functions, the other members of the views, the arguments, the table and
    the querysets. *)
Theorem decorator_outcome_depends_on
    (fn fn' : Handler) (inst inst' : View) (args args' : list Py)
    (kwargs kwargs' : gmap string Py) (w w' : World)
    (Hattr : View.acceptable_csv_file_name inst = View.acceptable_csv_file_name inst')
    (Hdata : req_data (w_request w) = req_data (w_request w')) :
  fst (decorator fn inst args kwargs w) = fst (decorator fn' inst' args' kwargs' w').
Proof. by rewrite !decorator_exception, Hattr, Hdata. Qed.

Lemma decorator_outcome_depends_on_witness :
  fst (BulkCreateModelMixin.create Sample.plain_view [] ∅ Sample.world)
  = fst (BulkUpdateModelMixin.bulk_update Variant.protective_view [PyInt 7]
           {[ "partial" := PyBool true ]} Sample.twin_world).
Proof.
  apply (decorator_outcome_depends_on BulkCreateModelMixin.create_fn
           BulkUpdateModelMixin.bulk_update_fn Sample.plain_view
           Variant.protective_view [] [PyInt 7] ∅ {[ "partial" := PyBool true ]}
           Sample.world Sample.twin_world); reflexivity.
Defined.

(** ** Bulk destroy: answers, refusal, failure *)

(** X4.  Whatever the view and its overridden hooks, a response returned by
    [bulk_destroy] has no body and its status is 400 or 204. *)
Theorem bulk_destroy_response
    (self : View) (args : list Py) (kwargs : gmap string Py) (w w' : World)
    (r : Response)
    (Hr : BulkDestroyModelMixin.bulk_destroy self args kwargs w = (Ok r, w')) :
  resp_data r = PyNone
  ∧ (resp_status r = status.HTTP_400_BAD_REQUEST
     ∨ resp_status r = status.HTTP_204_NO_CONTENT).
Proof.
  unfold BulkDestroyModelMixin.bulk_destroy, bind, ret in Hr.
  destruct (View.get_queryset self w) as [[qs|?] w1]; [|done].
  destruct (View.filter_queryset self qs w1) as [[filtered|?] w2]; [|done].
  destruct (View.allow_bulk_destroy self qs filtered w2) as [[allowed|?] w3]; [|done].
  destruct (py_truthy allowed); cbn [negb] in Hr.
  - destruct (View.perform_bulk_destroy self filtered w3) as [[[]|?] w4]; [|done].
    injection Hr as <- _. auto.
  - injection Hr as <- _. auto.
Qed.

Lemma bulk_destroy_response_witness :
  resp_data (mkResponse PyNone 400) = PyNone
  ∧ (resp_status (mkResponse PyNone 400) = status.HTTP_400_BAD_REQUEST
     ∨ resp_status (mkResponse PyNone 400) = status.HTTP_204_NO_CONTENT).
Proof.
  apply (bulk_destroy_response Sample.plain_view [] ∅ Sample.world
           (snd (BulkDestroyModelMixin.bulk_destroy Sample.plain_view [] ∅ Sample.world))).
  reflexivity.
Defined.

(** X5.  The refusal does not need the default guard: whenever the object's
    [allow_bulk_destroy] answers something falsy ([False], [None], [0], an
    empty container), [bulk_destroy] answers 400 and stops, the world being
    the one the guard left; no deletion hook is called. *)
Theorem bulk_destroy_refused_by_guard
    (self : View) (args : list Py) (kwargs : gmap string Py)
    (w w1 w2 w3 : World) (qs filtered : nat) (allowed : Py)
    (Hqs : View.get_queryset self w = (Ok qs, w1))
    (Hfiltered : View.filter_queryset self qs w1 = (Ok filtered, w2))
    (Hallow : View.allow_bulk_destroy self qs filtered w2 = (Ok allowed, w3))
    (Hfalsy : py_truthy allowed = false) :
  BulkDestroyModelMixin.bulk_destroy self args kwargs w
    = (Ok (mkResponse PyNone status.HTTP_400_BAD_REQUEST), w3).
Proof. by eapply bulk_destroy_refused_by_guard_run. Qed.

Lemma bulk_destroy_refused_by_guard_witness :
  fst (BulkDestroyModelMixin.bulk_destroy Variant.silent_view [] ∅ Sample.world)
    = Ok (mkResponse PyNone 400)
  ∧ w_db (snd (BulkDestroyModelMixin.bulk_destroy Variant.silent_view [] ∅ Sample.world))
    = Host.table.
Proof.
  set (w1 := snd (View.get_queryset Variant.silent_view Sample.world)).
  set (w2 := snd (View.filter_queryset Variant.silent_view 0 w1)).
  rewrite (bulk_destroy_refused_by_guard Variant.silent_view [] ∅ Sample.world
             w1 w2 w2 0 1 PyNone eq_refl eq_refl eq_refl eq_refl).
  split; reflexivity.
Defined.

(** X6.  A filter that matches nothing is not an error: when the destroy is
    allowed and the filtered collection is empty, the inherited
    [perform_bulk_destroy] calls [perform_destroy] not once, the answer is
    204 and the world is the one the guard left. *)
Theorem bulk_destroy_empty_collection
    (self : View) (args : list Py) (kwargs : gmap string Py)
    (w w1 w2 w3 : World) (qs filtered : nat) (allowed : Py)
    (Hbulk : View.perform_bulk_destroy self = BulkDestroyModelMixin.perform_bulk_destroy self)
    (Hqs : View.get_queryset self w = (Ok qs, w1))
    (Hfiltered : View.filter_queryset self qs w1 = (Ok filtered, w2))
    (Hallow : View.allow_bulk_destroy self qs filtered w2 = (Ok allowed, w3))
    (Hallowed : py_truthy allowed = true)
    (Hobjs : w_qsets w3 !! filtered = Some []) :
  BulkDestroyModelMixin.bulk_destroy self args kwargs w
    = (Ok (mkResponse PyNone status.HTTP_204_NO_CONTENT), w3).
Proof.
  erewrite bulk_destroy_allowed by eassumption.
  rewrite Hbulk.
  erewrite bind_ok; [reflexivity|].
  by rewrite (perform_bulk_destroy_calls_hook self filtered [] w3 Hobjs).
Qed.

Lemma bulk_destroy_empty_collection_witness :
  fst (BulkDestroyModelMixin.bulk_destroy Variant.empty_view [] ∅ Sample.world)
    = Ok (mkResponse PyNone 204)
  ∧ w_db (snd (BulkDestroyModelMixin.bulk_destroy Variant.empty_view [] ∅ Sample.world))
    = Host.table.
Proof.
  set (w1 := snd (View.get_queryset Variant.empty_view Sample.world)).
  set (w2 := snd (View.filter_queryset Variant.empty_view 0 w1)).
  rewrite (bulk_destroy_empty_collection Variant.empty_view [] ∅ Sample.world
             w1 w2 w2 0 1 (PyBool true) eq_refl eq_refl eq_refl eq_refl eq_refl eq_refl).
  split; reflexivity.
Defined.

(** X7.  The bulk deletion is not atomic.  When [perform_destroy] raises on
    an instance, [bulk_destroy] raises the same exception and returns no
    response; what [perform_destroy] did for the instances before it stays
    done, and the instances after it are never passed to the hook. *)
Theorem bulk_destroy_stops_at_first_failure
    (self : View) (args : list Py) (kwargs : gmap string Py)
    (w w1 w2 w3 wd wf : World) (qs filtered : nat) (allowed : Py)
    (before after : list Z) (failing : Z) (e : Exn)
    (Hbulk : View.perform_bulk_destroy self = BulkDestroyModelMixin.perform_bulk_destroy self)
    (Hqs : View.get_queryset self w = (Ok qs, w1))
    (Hfiltered : View.filter_queryset self qs w1 = (Ok filtered, w2))
    (Hallow : View.allow_bulk_destroy self qs filtered w2 = (Ok allowed, w3))
    (Hallowed : py_truthy allowed = true)
    (Hobjs : w_qsets w3 !! filtered = Some (before ++ failing :: after)%list)
    (Hbefore : for_each (View.perform_destroy self) before w3 = (Ok tt, wd))
    (Hfailing : View.perform_destroy self failing wd = (Raise e, wf)) :
  BulkDestroyModelMixin.bulk_destroy self args kwargs w = (Raise e, wf).
Proof.
  erewrite bulk_destroy_allowed by eassumption.
  rewrite Hbulk.
  erewrite bind_raise; [reflexivity|].
  rewrite (perform_bulk_destroy_calls_hook self filtered _ w3 Hobjs).
  by eapply for_each_stops.
Qed.

Lemma bulk_destroy_stops_at_first_failure_witness :
  fst (BulkDestroyModelMixin.bulk_destroy Variant.protective_view [] ∅ Sample.world)
    = Raise (HostError "ProtectedError")
  ∧ map fst (map_to_list
       (w_db (snd (BulkDestroyModelMixin.bulk_destroy Variant.protective_view [] ∅
                     Sample.world))))
    = [3; 4; 2; 1].
Proof.
  set (w1 := snd (View.get_queryset Variant.protective_view Sample.world)).
  set (w2 := snd (View.filter_queryset Variant.protective_view 0 w1)).
  set (wd := snd (instance_delete 5 w2)).
  rewrite (bulk_destroy_stops_at_first_failure Variant.protective_view [] ∅
             Sample.world w1 w2 w2 wd wd 0 1 (PyBool true) [5] [4; 2; 1] 3
             (HostError "ProtectedError")
             eq_refl eq_refl eq_refl eq_refl eq_refl eq_refl eq_refl eq_refl).
  split; reflexivity.
Defined.

(** X8.  With the inherited deletion hooks, [bulk_destroy] only ever removes
    rows: on every path (refusal, deletion, a filtered object that cannot be
    iterated) the table afterwards is a part of the table the guard left, so
    no row is added and no remaining row is changed. *)
Theorem bulk_destroy_only_removes_rows
    (self : View) (args : list Py) (kwargs : gmap string Py)
    (w w1 w2 w3 : World) (qs filtered : nat) (allowed : Py)
    (Hbulk : View.perform_bulk_destroy self = BulkDestroyModelMixin.perform_bulk_destroy self)
    (Hone : View.perform_destroy self = BulkDestroyModelMixin.perform_destroy self)
    (Hqs : View.get_queryset self w = (Ok qs, w1))
    (Hfiltered : View.filter_queryset self qs w1 = (Ok filtered, w2))
    (Hallow : View.allow_bulk_destroy self qs filtered w2 = (Ok allowed, w3)) :
  w_db (snd (BulkDestroyModelMixin.bulk_destroy self args kwargs w)) ⊆ w_db w3.
Proof.
  destruct (py_truthy allowed) eqn:Hallowed.
  - erewrite bulk_destroy_allowed by eassumption.
    destruct (w_qsets w3 !! filtered) as [objs|] eqn:Hobjs.
    + assert (View.perform_bulk_destroy self filtered w3
              = for_each instance_delete objs w3) as Hrun.
      { by rewrite Hbulk, (perform_bulk_destroy_calls_hook self filtered objs w3 Hobjs),
          Hone. }
      pose proof (for_each_delete_subseteq objs w3) as Hsub.
      unfold bind. rewrite Hrun.
      by destruct (for_each instance_delete objs w3) as [[[]|?] w4].
    + assert (View.perform_bulk_destroy self filtered w3 = (Raise TypeError, w3)) as Hrun.
      { rewrite Hbulk.
        unfold BulkDestroyModelMixin.perform_bulk_destroy, bind, iter_queryset.
        by rewrite Hobjs. }
      by erewrite bind_raise by exact Hrun.
  - by erewrite bulk_destroy_refused_by_guard_run by eassumption.
Qed.

Lemma bulk_destroy_only_removes_rows_witness :
  w_db (snd (BulkDestroyModelMixin.bulk_destroy Sample.narrowing_view [] ∅ Sample.world))
    ⊆ Host.table.
Proof.
  set (w1 := snd (View.get_queryset Sample.narrowing_view Sample.world)).
  set (w2 := snd (View.filter_queryset Sample.narrowing_view 0 w1)).
  exact (bulk_destroy_only_removes_rows Sample.narrowing_view [] ∅ Sample.world
           w1 w2 w2 0 1 (PyBool true) eq_refl eq_refl eq_refl eq_refl eq_refl).
Defined.

(** ** Object lookup: which key, and what can go wrong *)

(** X9.  A non-empty [lookup_url_kwarg] is the only key looked for: when it
    is not among the URL keyword arguments, [get_object] returns [None] and
    does not call the inherited lookup, even if [lookup_field] is there. *)
Theorem get_object_prefers_lookup_url_kwarg (self : View) (w : World)
    (Hset : py_truthy (View.lookup_url_kwarg self) = true)
    (Habsent : py_contains (View.lookup_url_kwarg self) (PyDict (View.kwargs self))
               = Ok false) :
  BulkUpdateModelMixin.get_object self w = (Ok PyNone, w).
Proof.
  unfold BulkUpdateModelMixin.get_object, py_or, bind, lift.
  by rewrite Hset, Habsent.
Qed.

Lemma get_object_prefers_lookup_url_kwarg_witness :
  py_contains (View.lookup_field Variant.slug_view)
    (PyDict (View.kwargs Variant.slug_view)) = Ok true
  ∧ BulkUpdateModelMixin.get_object Variant.slug_view Sample.world
    = (Ok PyNone, Sample.world).
Proof.
  split; [reflexivity|].
  apply (get_object_prefers_lookup_url_kwarg Variant.slug_view Sample.world);
    reflexivity.
Defined.

(** X10.  On a route without URL keyword arguments (a list route),
    [get_object] returns [None] and touches nothing, whatever hashable key
    the view is configured with; the inherited lookup is never called. *)
Theorem get_object_without_url_kwargs (self : View) (w : World)
    (Hroute : View.kwargs self = [])
    (Hkey : py_hashable (py_or (View.lookup_url_kwarg self) (View.lookup_field self))
            = true) :
  BulkUpdateModelMixin.get_object self w = (Ok PyNone, w).
Proof.
  unfold BulkUpdateModelMixin.get_object, bind, lift, py_contains.
  rewrite Hroute, Hkey.
  by destruct (py_or _ _).
Qed.

Lemma get_object_without_url_kwargs_witness :
  BulkUpdateModelMixin.get_object Sample.narrowing_view Sample.world
    = (Ok PyNone, Sample.world).
Proof.
  apply (get_object_without_url_kwargs Sample.narrowing_view Sample.world);
    reflexivity.
Defined.

(** X11.  A lookup key that cannot be hashed (a list, a dictionary) makes
    [get_object] raise [TypeError] from the membership test, before any
    lookup, whatever the URL keyword arguments are. *)
Theorem get_object_unhashable_key (self : View) (w : World)
    (Hkey : py_hashable (py_or (View.lookup_url_kwarg self) (View.lookup_field self))
            = false) :
  BulkUpdateModelMixin.get_object self w = (Raise TypeError, w).
Proof.
  unfold BulkUpdateModelMixin.get_object, bind, lift, py_contains.
  by rewrite Hkey.
Qed.

Lemma get_object_unhashable_key_witness :
  BulkUpdateModelMixin.get_object Variant.list_key_view Sample.world
    = (Raise TypeError, Sample.world).
Proof.
  apply (get_object_unhashable_key Variant.list_key_view Sample.world).
  reflexivity.
Defined.

(** ** Bulk destroy when the database refuses a deletion *)

(** X13.  With the inherited deletion hooks, when the database refuses to
    delete an instance of the filtered collection and accepts the ones
    iterated before it, [bulk_destroy] raises the database's exception and
    returns no response; the rows iterated before the refused one are gone,
    and every other row, the refused one and those after it included, is as
    the guard left it. *)
Theorem bulk_destroy_refused_delete
    (self : View) (args : list Py) (kwargs : gmap string Py)
    (w w1 w2 w3 : World) (qs filtered : nat) (allowed : Py)
    (before after : list Z) (failing : Z) (e : Exn)
    (Hbulk : View.perform_bulk_destroy self = BulkDestroyModelMixin.perform_bulk_destroy self)
    (Hone : View.perform_destroy self = BulkDestroyModelMixin.perform_destroy self)
    (Hqs : View.get_queryset self w = (Ok qs, w1))
    (Hfiltered : View.filter_queryset self qs w1 = (Ok filtered, w2))
    (Hallow : View.allow_bulk_destroy self qs filtered w2 = (Ok allowed, w3))
    (Hallowed : py_truthy allowed = true)
    (Hobjs : w_qsets w3 !! filtered = Some (before ++ failing :: after)%list)
    (Hbefore : ∀ pk, pk ∈ before → w_locked w3 !! pk = None)
    (Hfailing : w_locked w3 !! failing = Some e) :
  ∃ w',
    BulkDestroyModelMixin.bulk_destroy self args kwargs w = (Raise e, w')
    ∧ (∀ pk, w_db w' !! pk = if bool_decide (pk ∈ before) then None else w_db w3 !! pk)
    ∧ w_qsets w' = w_qsets w3
    ∧ w_locked w' = w_locked w3.
Proof.
  eexists. split; [|split; [|split]].
  - erewrite bulk_destroy_allowed by eassumption.
    rewrite Hbulk.
    erewrite bind_raise; [reflexivity|].
    rewrite (perform_bulk_destroy_calls_hook self filtered _ w3 Hobjs), Hone.
    eapply for_each_stops.
    + by apply for_each_delete.
    + unfold BulkDestroyModelMixin.perform_destroy, instance_delete.
      cbn [w_locked]. by rewrite Hfailing.
  - intros pk. cbn [w_db]. apply lookup_foldl_delete.
  - reflexivity.
  - reflexivity.
Qed.

Lemma bulk_destroy_refused_delete_witness :
  ∃ w', BulkDestroyModelMixin.bulk_destroy Sample.cloning_view [] ∅ Variant.locked_world
          = (Raise (HostError "ProtectedError"), w')
        ∧ w_db w' !! 5 = None
        ∧ w_db w' !! 3 = Some (Host.row "c")
        ∧ w_db w' !! 4 = Some (Host.row "d").
Proof.
  set (w1 := snd (View.get_queryset Sample.cloning_view Variant.locked_world)).
  set (w2 := snd (View.filter_queryset Sample.cloning_view 0 w1)).
  assert (∀ pk, pk ∈ [5] → w_locked w2 !! pk = None) as Hfree.
  { intros pk Hin. apply elem_of_cons in Hin as [->|Hin]; [reflexivity|].
    by apply elem_of_nil in Hin. }
  destruct (bulk_destroy_refused_delete Sample.cloning_view [] ∅ Variant.locked_world
              w1 w2 w2 0 1 (PyBool true) [5] [4; 2; 1] 3 (HostError "ProtectedError")
              eq_refl eq_refl eq_refl eq_refl eq_refl eq_refl eq_refl Hfree eq_refl)
    as (w' & Hr & Hdb & _ & _).
  exists w'. split; [exact Hr|].
  rewrite !Hdb. repeat split; reflexivity.
Defined.
